(** * openfecli.commands.atommapping

    A shallow embedding of [src/openfecli/commands/atommapping.py], the
    [openfe atommapping] command: the [--mol] callback, the extraction of a
    single mapping from a mapper, and the two output paths (printing the
    correspondence dictionary, or writing a rendered image).

    Python exceptions are an explicit [Outcome]; printing and writing to a
    file are recorded in a log of output events that is threaded through the
    command.  What the module imports is abstract: the types and the drawing
    routine are the fields of the class [Externals], the parameter resolvers
    those of the record [Resolvers]. *)

From Stdlib Require Import List String Ascii Bool Arith ZArith Lia.
From Stdlib.Strings Require Import Byte.
From Stdlib Require Import Decimal DecimalString.
Import ListNotations.

Local Open Scope string_scope.
Local Open Scope list_scope.

(** ** The fragment of Python the command relies on *)

Module Py.

(** [str(n)] for a length, and for an arbitrary [int]. *)
Definition str_of_nat (n : nat) : string :=
  NilZero.string_of_uint (Nat.to_uint n).

Definition str_of_int (z : Z) : string :=
  NilZero.string_of_int (Z.to_int z).

(** [sep.join(xs)]. *)
Definition join (sep : string) (xs : list string) : string :=
  String.concat sep xs.

(** The line terminator [print] appends. *)
Definition newline : string := String (ascii_of_nat 10) EmptyString.

(** A [dict], in insertion order.  [d[k]] is [dict_get]: [None] stands for
    [KeyError]. *)
Definition dict (K V : Type) : Type := list (K * V).

Fixpoint dict_get {V : Type} (d : dict string V) (k : string) : option V :=
  match d with
  | [] => None
  | (k', v) :: rest => if String.eqb k' k then Some v else dict_get rest k
  end.

(** Iterating over a dict yields its keys. *)
Definition keys {K V : Type} (d : dict K V) : list K := map fst d.

(** [str(d)] for a dict of ints: [{0: 0, 1: 2}]. *)
Definition item_repr (kv : Z * Z) : string :=
  (str_of_int (fst kv) ++ ": " ++ str_of_int (snd kv))%string.

Definition dict_repr (d : dict Z Z) : string :=
  ("{" ++ join ", " (map item_repr d) ++ "}")%string.

(** [s.lower()] on ASCII text. *)
Definition lower_ascii (c : ascii) : ascii :=
  let n := nat_of_ascii c in
  if ((65 <=? n) && (n <=? 90))%nat then ascii_of_nat (n + 32) else c.

Fixpoint lower (s : string) : string :=
  match s with
  | EmptyString => EmptyString
  | String c rest => String (lower_ascii c) (lower rest)
  end.

(** [sub in s]. *)
Definition contains (s sub : string) : Prop :=
  exists pre post : string, s = (pre ++ sub ++ post)%string.

End Py.

(** ** Exceptions and outcomes *)

(** The exceptions this module can raise: click's [BadParameter] and
    [UsageError], and the builtin ones behind tuple unpacking and list
    indexing.  [BadParameter] is click's parameter error; [UsageError] its
    usage error. *)
Inductive Exception : Type :=
| BadParameter (message : string)
| UsageError (message : string)
| ValueError
| IndexError.

Inductive Outcome (A : Type) : Type :=
| Returned (value : A)
| Raised (e : Exception).

Arguments Returned {A} value.
Arguments Raised {A} e.

(** ** The external collaborators *)

(** The drawing backend built for the ["png"] entry:
    [Draw.rdMolDraw2D.MolDraw2DCairo(600, 300, 300, 300)]. *)
Inductive Artist : Type :=
| MolDraw2DCairo (width height panelWidth panelHeight : Z).

(** What the module imports and does not define: molecules and their RDKit
    form, open output files, the mapper classes that [--mapper] names, the
    value click passes for [--output], and [visualization.draw_mapping].
    Collaborators are total functions here: an exception raised inside one
    of them is not an error of this module. *)
Class Externals : Type := {
  Molecule : Type;
  RDMol : Type;
  to_rdkit : Molecule -> RDMol;
  File : Type;
  MapperClass : Type;
  Output : Type;
  draw_mapping : Py.dict Z Z -> RDMol -> RDMol -> Artist -> list byte
}.

(** An [AtomMapping]: the two molecules and the table of atom indices. *)
Module AtomMapping.
Record t {E : Externals} : Type := {
  mol1 : Molecule;
  mol2 : Molecule;
  mol1_to_mol2 : Py.dict Z Z
}.
End AtomMapping.

(** An [AtomMapper] object: [suggest_mappings] yields its suggestions. *)
Module AtomMapper.
Record t {E : Externals} : Type := {
  suggest_mappings : Molecule -> Molecule -> list AtomMapping.t
}.
End AtomMapper.

Section Model.

Context {E : Externals}.

(** The parameter resolvers [MOL.get], [MAPPER.get] (which returns a class,
    instantiated with no argument) and [OUTPUT_FILE_AND_EXT.get] (the file is
    [None] when no output was requested; the extension is then unused). *)
Record Resolvers : Type := {
  MOL_get : string -> Molecule;
  MAPPER_get : string -> MapperClass;
  instantiate : MapperClass -> AtomMapper.t;
  OUTPUT_FILE_AND_EXT_get : Output -> option File * string
}.

(** ** Output log and the command monad *)

Inductive Event : Type :=
| Stdout (text : string)
| FileWrite (file : File) (contents : list byte).

(** Everything output so far, oldest first. *)
Definition World : Type := list Event.

Definition M (A : Type) : Type := World -> Outcome A * World.

Definition ret {A : Type} (a : A) : M A := fun w => (Returned a, w).

Definition raise {A : Type} (e : Exception) : M A := fun w => (Raised e, w).

Definition bind {A B : Type} (m : M A) (k : A -> M B) : M B :=
  fun w =>
    match m w with
    | (Returned a, w') => k a w'
    | (Raised e, w') => (Raised e, w')
    end.

Definition lift {A : Type} (o : Outcome A) : M A := fun w => (o, w).

(** [print(s)] and [file.write(contents)]. *)
Definition print (s : string) : M unit :=
  fun w => (Returned tt, w ++ [Stdout (s ++ Py.newline)]).

Definition write (file : File) (contents : list byte) : M unit :=
  fun w => (Returned tt, w ++ [FileWrite file contents]).

End Model.

Notation "x <- m ;; k" := (bind m (fun x => k))
  (at level 61, m at next level, right associativity).

Section Command.

Context {E : Externals}.

(** ** [allow_two_molecules] *)

(** The click callback; [ctx] and [param] are not inspected. *)
Definition allow_two_molecules {Ctx Param : Type} (ctx : Ctx) (param : Param)
    (value : list string) : Outcome (list string) :=
  if negb (Nat.eqb (List.length value) 2) then
    Raised (BadParameter "Must specify --mol exactly twice.")
  else
    Returned value.

(** ** [generate_mapping] *)

Definition found_message (n : nat) : string :=
  ("Found " ++ Py.str_of_nat n
     ++ " mappings; this command requires a mapper "
     ++ "to provide exactly 1 mapping")%string.

Definition generate_mapping (mapper : AtomMapper.t) (mol1 mol2 : Molecule)
    : Outcome AtomMapping.t :=
  let mappings := AtomMapper.suggest_mappings mapper mol1 mol2 in
  if negb (Nat.eqb (List.length mappings) 1) then
    Raised (UsageError (found_message (List.length mappings)))
  else
    match nth_error mappings 0 with
    | Some mapping => Returned mapping
    | None => Raised IndexError
    end.

(** ** [atommapping_print_dict_main] *)

Definition atommapping_print_dict_main (mapper : AtomMapper.t)
    (mol1 mol2 : Molecule) : M unit :=
  mapping <- lift (generate_mapping mapper mol1 mol2) ;;
  print (Py.dict_repr (AtomMapping.mol1_to_mol2 mapping)).

(** ** [atommapping_visualize_main] *)

Definition ext_to_artist : Py.dict string Artist :=
  [ ("png", MolDraw2DCairo 600 300 300 300) ].

Definition quoted (ext : string) : string := ("'" ++ ext ++ "'")%string.

Definition unknown_format_message (ext : string) : string :=
  ("Unknown file format: '" ++ ext ++ "'. The following formats are "
     ++ "supported: " ++ Py.join ", " (map quoted (Py.keys ext_to_artist)))%string.

Definition atommapping_visualize_main (mapper : AtomMapper.t)
    (mol1 mol2 : Molecule) (file : File) (ext : string) : M unit :=
  mapping <- lift (generate_mapping mapper mol1 mol2) ;;
  artist <- match Py.dict_get ext_to_artist ext with
            | Some artist => ret artist
            | None => raise (BadParameter (unknown_format_message ext))
            end ;;
  let contents := draw_mapping (AtomMapping.mol1_to_mol2 mapping)
                               (to_rdkit (AtomMapping.mol1 mapping))
                               (to_rdkit (AtomMapping.mol2 mapping)) artist in
  write file contents.

(** The runs of [atommapping_visualize_main], as a relation: a miscount, an
    unknown extension, or a single write of the drawing. *)
Inductive VisualizeRun (mapper : AtomMapper.t) (mol1 mol2 : Molecule)
    (file : File) (ext : string) (w : World) : Outcome unit * World -> Prop :=
| run_miscount :
    List.length (AtomMapper.suggest_mappings mapper mol1 mol2) <> 1 ->
    VisualizeRun mapper mol1 mol2 file ext w
      (Raised (UsageError (found_message
         (List.length (AtomMapper.suggest_mappings mapper mol1 mol2)))), w)
| run_unknown_ext m :
    AtomMapper.suggest_mappings mapper mol1 mol2 = [m] ->
    ext <> "png" ->
    VisualizeRun mapper mol1 mol2 file ext w
      (Raised (BadParameter (unknown_format_message ext)), w)
| run_written m :
    AtomMapper.suggest_mappings mapper mol1 mol2 = [m] ->
    ext = "png" ->
    VisualizeRun mapper mol1 mol2 file ext w
      (Returned tt,
       w ++ [FileWrite file
               (draw_mapping (AtomMapping.mol1_to_mol2 m)
                             (to_rdkit (AtomMapping.mol1 m))
                             (to_rdkit (AtomMapping.mol2 m))
                             (MolDraw2DCairo 600 300 300 300))]).

(** ** [atommapping] *)

Context (R : Resolvers).

(** [mol1_str, mol2_str = mol]: unpacking anything but two values is a
    [ValueError]. *)
Definition unpack_pair {A : Type} (xs : list A) : Outcome (A * A) :=
  match xs with
  | [a; b] => Returned (a, b)
  | _ => Raised ValueError
  end.

(** The body of the command, as click calls it once the options have been
    processed.  [if file:] holds exactly when a file was resolved. *)
Definition atommapping (mol : list string) (mapper : string)
    (output : Output) : M unit :=
  strs <- lift (unpack_pair mol) ;;
  let mol1 := MOL_get R (fst strs) in
  let mol2 := MOL_get R (snd strs) in
  let mapper_cls := MAPPER_get R mapper in
  let mapper_obj := instantiate R mapper_cls in
  let (file, ext) := OUTPUT_FILE_AND_EXT_get R output in
  match file with
  | Some file => atommapping_visualize_main mapper_obj mol1 mol2 file ext
  | None => atommapping_print_dict_main mapper_obj mol1 mol2
  end.

(** ** Reading the output log *)

(** What was printed, and what was written to files, in order. *)
Fixpoint printed (w : World) : list string :=
  match w with
  | [] => []
  | Stdout text :: rest => text :: printed rest
  | FileWrite _ _ :: rest => printed rest
  end.

Fixpoint written (w : World) : list (File * list byte) :=
  match w with
  | [] => []
  | Stdout _ :: rest => written rest
  | FileWrite file contents :: rest => (file, contents) :: written rest
  end.

End Command.

(** Modelled from the spec: [openfe.utils.visualization.draw_mapping] is not
    under src/.  The spec describes it as "an external drawing routine
    producing image bytes" and expects what is written for "png" to be
    non-empty; that is all that is taken from it. *)
Definition draws_image_bytes {E : Externals} : Prop :=
  forall d m1 m2 artist, draw_mapping d m1 m2 artist <> [].

(** ** A concrete instance

    Molecules and files are names, the drawing routine returns the PNG
    signature, and a mapper class is named after the number of mappings its
    instances suggest.  It is used to run the model on concrete inputs. *)

Module Demo.

Definition png_signature : list byte :=
  [x89; x50; x4e; x47; x0d; x0a; x1a; x0a].

#[export] Instance externals : Externals := {|
  Molecule := string;
  RDMol := string;
  to_rdkit := fun m => m;
  File := string;
  MapperClass := string;
  Output := option (string * string);
  draw_mapping := fun _ _ _ _ => png_signature
|}.

Definition mapping_of (a b : string) : AtomMapping.t :=
  {| AtomMapping.mol1 := a;
     AtomMapping.mol2 := b;
     AtomMapping.mol1_to_mol2 := [(0, 0); (1, 2); (2, 1)]%Z |}.

Definition mapper_of (cls : string) : AtomMapper.t :=
  {| AtomMapper.suggest_mappings := fun a b =>
       if String.eqb cls "empty" then []
       else if String.eqb cls "single" then [mapping_of a b]
       else [mapping_of a b; mapping_of b a] |}.

Definition resolvers : Resolvers :=
  {| MOL_get := fun s => s;
     MAPPER_get := fun s => s;
     instantiate := mapper_of;
     OUTPUT_FILE_AND_EXT_get := fun o =>
       match o with
       | Some (file, ext) => (Some file, ext)
       | None => (None, "")
       end |}.

End Demo.

(** * Properties *)

(** ** Sanity checks on the concrete instance *)

Example demo_found_0 :
  generate_mapping (Demo.mapper_of "empty") "benzene" "toluene"
  = Raised (UsageError
      "Found 0 mappings; this command requires a mapper to provide exactly 1 mapping").
Proof. reflexivity. Qed.

Example demo_found_2 :
  generate_mapping (Demo.mapper_of "double") "benzene" "toluene"
  = Raised (UsageError
      "Found 2 mappings; this command requires a mapper to provide exactly 1 mapping").
Proof. reflexivity. Qed.

Example demo_print :
  atommapping Demo.resolvers ["benzene"; "toluene"] "single" None []
  = (Returned tt, [Stdout ("{0: 0, 1: 2, 2: 1}" ++ Py.newline)]).
Proof. reflexivity. Qed.

Example demo_png :
  atommapping Demo.resolvers ["benzene"; "toluene"] "single"
              (Some ("out.png", "png")) []
  = (Returned tt, [FileWrite (E := Demo.externals) "out.png" Demo.png_signature]).
Proof. reflexivity. Qed.

Example demo_bmp :
  atommapping Demo.resolvers ["benzene"; "toluene"] "single"
              (Some ("out.bmp", "bmp")) []
  = (Raised (BadParameter
       "Unknown file format: 'bmp'. The following formats are supported: 'png'"),
     []).
Proof. reflexivity. Qed.

(** ** Helper lemmas *)

Lemma length_one_inv {A : Type} (l : list A) :
  List.length l = 1 -> exists x, l = [x].
Proof.
  destruct l as [|x [|y l']]; simpl; intros H; try discriminate.
  now exists x.
Qed.

Lemma string_app_assoc (s1 s2 s3 : string) :
  ((s1 ++ s2) ++ s3 = s1 ++ (s2 ++ s3))%string.
Proof.
  induction s1 as [|c s1 IH]; simpl; [reflexivity | now rewrite IH].
Qed.

Lemma contains_middle (pre sub post : string) :
  Py.contains (pre ++ sub ++ post) sub.
Proof. now exists pre, post. Qed.

Lemma dict_get_ext_to_artist (ext : string) :
  Py.dict_get ext_to_artist ext
  = if String.eqb "png" ext then Some (MolDraw2DCairo 600 300 300 300) else None.
Proof. reflexivity. Qed.

Lemma no_renderer_iff (ext : string) :
  Py.dict_get ext_to_artist ext = None <-> ext <> "png".
Proof.
  rewrite dict_get_ext_to_artist.
  destruct (String.eqb_spec "png" ext) as [Heq|Hne]; split; intros H.
  - discriminate.
  - now contradiction H.
  - intros ->. now apply Hne.
  - reflexivity.
Qed.

Lemma unknown_format_message_png (ext : string) :
  unknown_format_message ext
  = ("Unknown file format: '" ++ ext
       ++ "'. The following formats are supported: 'png'")%string.
Proof. reflexivity. Qed.

Section Properties.

Context {E : Externals}.

Lemma found_message_mentions_count (n : nat) :
  Py.contains (found_message n) (Py.str_of_nat n).
Proof. unfold found_message. apply contains_middle. Qed.

(** The two branches of [generate_mapping]. *)
Lemma generate_mapping_single mapper mol1 mol2 m :
  AtomMapper.suggest_mappings mapper mol1 mol2 = [m] ->
  generate_mapping mapper mol1 mol2 = Returned m.
Proof. unfold generate_mapping. now intros ->. Qed.

Lemma generate_mapping_miscount mapper mol1 mol2 :
  List.length (AtomMapper.suggest_mappings mapper mol1 mol2) <> 1 ->
  generate_mapping mapper mol1 mol2
  = Raised (UsageError (found_message
      (List.length (AtomMapper.suggest_mappings mapper mol1 mol2)))).
Proof.
  intros Hn. unfold generate_mapping.
  apply Nat.eqb_neq in Hn. now rewrite Hn.
Qed.

(** ** C3, C9: the [--mol] callback *)

(** C3. For every tuple of [--mol] values whose length is not 2 the callback
    raises click's parameter error [BadParameter] (with the message
    "Must specify --mol exactly twice."), and for a tuple of exactly two
    values it raises nothing. *)
Theorem allow_two_molecules_rejects_all_but_two
    {Ctx Param : Type} (ctx : Ctx) (param : Param) (value : list string) :
  (List.length value <> 2 ->
     allow_two_molecules ctx param value
     = Raised (BadParameter "Must specify --mol exactly twice."))
  /\ (List.length value = 2 ->
        forall e, allow_two_molecules ctx param value <> Raised e).
Proof.
  unfold allow_two_molecules. split; intros Hlen.
  - apply Nat.eqb_neq in Hlen. now rewrite Hlen.
  - rewrite Hlen. simpl. discriminate.
Qed.

(** C9. On a tuple of exactly two [--mol] values the callback returns the
    very tuple it was given: same values, same order. *)
Theorem allow_two_molecules_identity
    {Ctx Param : Type} (ctx : Ctx) (param : Param) (value : list string) :
  List.length value = 2 ->
  allow_two_molecules ctx param value = Returned value.
Proof.
  intros Hlen. unfold allow_two_molecules. now rewrite Hlen.
Qed.

(** ** C1, C2: [generate_mapping] *)

(** C1. [generate_mapping] raises a usage error exactly when the mapper
    does not suggest exactly one mapping; whatever it raises is that usage
    error, and its message is "Found n mappings; ..." with n the number of
    mappings found, written in decimal. *)
Theorem generate_mapping_usage_error_iff
    (mapper : AtomMapper.t) (mol1 mol2 : Molecule) :
  ((exists message,
       generate_mapping mapper mol1 mol2 = Raised (UsageError message))
   <-> List.length (AtomMapper.suggest_mappings mapper mol1 mol2) <> 1)
  /\ (forall e, generate_mapping mapper mol1 mol2 = Raised e ->
        exists message,
          e = UsageError message
          /\ message = found_message
               (List.length (AtomMapper.suggest_mappings mapper mol1 mol2))
          /\ Py.contains message
               (Py.str_of_nat
                  (List.length (AtomMapper.suggest_mappings mapper mol1 mol2)))).
Proof.
  destruct (Nat.eq_dec
              (List.length (AtomMapper.suggest_mappings mapper mol1 mol2)) 1)
    as [Hone|Hmany].
  - destruct (length_one_inv _ Hone) as [m Hm].
    rewrite (generate_mapping_single _ _ _ _ Hm). split.
    + split; [intros [message Hraise]; discriminate | intros Hne; now elim Hne].
    + intros e Hraise. discriminate.
  - rewrite (generate_mapping_miscount _ _ _ Hmany). split.
    + split; [now intros _ | intros _; eauto].
    + intros e [= <-]. eexists. repeat split.
      apply found_message_mentions_count.
Qed.

(** C2. When the mapper's suggestion routine yields exactly one mapping,
    [generate_mapping] returns it: the unique element of the suggestions. *)
Theorem generate_mapping_returns_the_single_mapping
    (mapper : AtomMapper.t) (mol1 mol2 : Molecule) :
  List.length (AtomMapper.suggest_mappings mapper mol1 mol2) = 1 ->
  exists mapping,
    AtomMapper.suggest_mappings mapper mol1 mol2 = [mapping]
    /\ generate_mapping mapper mol1 mol2 = Returned mapping.
Proof.
  intros Hone. destruct (length_one_inv _ Hone) as [m Hm].
  exists m. split; [exact Hm | now apply generate_mapping_single].
Qed.

(** ** The output paths, branch by branch *)

Lemma visualize_main_miscount mapper mol1 mol2 file ext w :
  List.length (AtomMapper.suggest_mappings mapper mol1 mol2) <> 1 ->
  atommapping_visualize_main mapper mol1 mol2 file ext w
  = (Raised (UsageError (found_message
       (List.length (AtomMapper.suggest_mappings mapper mol1 mol2)))), w).
Proof.
  intros Hn. unfold atommapping_visualize_main, bind, lift.
  now rewrite (generate_mapping_miscount _ _ _ Hn).
Qed.

Lemma visualize_main_unknown_ext mapper mol1 mol2 file ext w m :
  AtomMapper.suggest_mappings mapper mol1 mol2 = [m] ->
  ext <> "png" ->
  atommapping_visualize_main mapper mol1 mol2 file ext w
  = (Raised (BadParameter (unknown_format_message ext)), w).
Proof.
  intros Hm Hext. unfold atommapping_visualize_main, bind, lift.
  rewrite (generate_mapping_single _ _ _ _ Hm).
  apply no_renderer_iff in Hext. now rewrite Hext.
Qed.

Lemma visualize_main_png mapper mol1 mol2 file w m :
  AtomMapper.suggest_mappings mapper mol1 mol2 = [m] ->
  atommapping_visualize_main mapper mol1 mol2 file "png" w
  = (Returned tt,
     w ++ [FileWrite file
             (draw_mapping (AtomMapping.mol1_to_mol2 m)
                           (to_rdkit (AtomMapping.mol1 m))
                           (to_rdkit (AtomMapping.mol2 m))
                           (MolDraw2DCairo 600 300 300 300))]).
Proof.
  intros Hm. unfold atommapping_visualize_main, bind, lift.
  now rewrite (generate_mapping_single _ _ _ _ Hm).
Qed.

Lemma print_dict_main_single mapper mol1 mol2 w m :
  AtomMapper.suggest_mappings mapper mol1 mol2 = [m] ->
  atommapping_print_dict_main mapper mol1 mol2 w
  = (Returned tt,
     w ++ [Stdout (Py.dict_repr (AtomMapping.mol1_to_mol2 m) ++ Py.newline)]).
Proof.
  intros Hm. unfold atommapping_print_dict_main, bind, lift.
  now rewrite (generate_mapping_single _ _ _ _ Hm).
Qed.

Lemma print_dict_main_miscount mapper mol1 mol2 w :
  List.length (AtomMapper.suggest_mappings mapper mol1 mol2) <> 1 ->
  atommapping_print_dict_main mapper mol1 mol2 w
  = (Raised (UsageError (found_message
       (List.length (AtomMapper.suggest_mappings mapper mol1 mol2)))), w).
Proof.
  intros Hn. unfold atommapping_print_dict_main, bind, lift.
  now rewrite (generate_mapping_miscount _ _ _ Hn).
Qed.

Lemma visualize_main_run mapper mol1 mol2 file ext w :
  VisualizeRun mapper mol1 mol2 file ext w
    (atommapping_visualize_main mapper mol1 mol2 file ext w).
Proof.
  destruct (Nat.eq_dec
              (List.length (AtomMapper.suggest_mappings mapper mol1 mol2)) 1)
    as [Hone|Hmany].
  - destruct (length_one_inv _ Hone) as [m Hm].
    destruct (string_dec ext "png") as [->|Hext].
    + rewrite (visualize_main_png _ _ _ _ _ _ Hm).
      now apply run_written with (m := m).
    + rewrite (visualize_main_unknown_ext _ _ _ _ _ _ _ Hm Hext).
      now apply run_unknown_ext with (m := m).
  - rewrite (visualize_main_miscount _ _ _ _ _ _ Hmany).
    now apply run_miscount.
Qed.

(** The log projections over an appended event. *)
Lemma printed_app w1 w2 : printed (w1 ++ w2) = printed w1 ++ printed w2.
Proof.
  induction w1 as [|[text|file contents] w1 IH]; simpl; congruence.
Qed.

Lemma written_app w1 w2 : written (w1 ++ w2) = written w1 ++ written w2.
Proof.
  induction w1 as [|[text|file contents] w1 IH]; simpl; congruence.
Qed.

Lemma visualize_main_prints_nothing mapper mol1 mol2 file ext w :
  printed (snd (atommapping_visualize_main mapper mol1 mol2 file ext w))
  = printed w.
Proof.
  destruct (visualize_main_run mapper mol1 mol2 file ext w); simpl; trivial.
  rewrite printed_app. simpl. apply app_nil_r.
Qed.

Lemma print_dict_main_writes_nothing mapper mol1 mol2 w :
  written (snd (atommapping_print_dict_main mapper mol1 mol2 w)) = written w.
Proof.
  destruct (Nat.eq_dec
              (List.length (AtomMapper.suggest_mappings mapper mol1 mol2)) 1)
    as [Hone|Hmany].
  - destruct (length_one_inv _ Hone) as [m Hm].
    rewrite (print_dict_main_single _ _ _ _ _ Hm). simpl.
    rewrite written_app. simpl. apply app_nil_r.
  - now rewrite (print_dict_main_miscount _ _ _ _ Hmany).
Qed.

(** The command on a pair of [--mol] values: the dispatch of [atommapping]. *)
Lemma atommapping_dispatch (R : Resolvers) a b mapper output w :
  atommapping R [a; b] mapper output w
  = match fst (OUTPUT_FILE_AND_EXT_get R output) with
    | Some file =>
        atommapping_visualize_main
          (instantiate R (MAPPER_get R mapper)) (MOL_get R a) (MOL_get R b)
          file (snd (OUTPUT_FILE_AND_EXT_get R output)) w
    | None =>
        atommapping_print_dict_main
          (instantiate R (MAPPER_get R mapper)) (MOL_get R a) (MOL_get R b) w
    end.
Proof.
  unfold atommapping, bind, lift. simpl.
  now destruct (OUTPUT_FILE_AND_EXT_get R output) as [[file|] ext].
Qed.

(** ** C6: the dispatch *)

(** C6. Which output path the command takes depends only on whether an
    output file was requested: with a file the command is the
    image-rendering path (and prints nothing), without one it is the
    printing path (and writes no file). *)
Theorem atommapping_dispatches_on_file
    (R : Resolvers) (a b mapper : string) (output : Output) (w : World) :
  (forall file,
      fst (OUTPUT_FILE_AND_EXT_get R output) = Some file ->
      atommapping R [a; b] mapper output w
      = atommapping_visualize_main
          (instantiate R (MAPPER_get R mapper)) (MOL_get R a) (MOL_get R b)
          file (snd (OUTPUT_FILE_AND_EXT_get R output)) w
      /\ printed (snd (atommapping R [a; b] mapper output w)) = printed w)
  /\ (fst (OUTPUT_FILE_AND_EXT_get R output) = None ->
      atommapping R [a; b] mapper output w
      = atommapping_print_dict_main
          (instantiate R (MAPPER_get R mapper)) (MOL_get R a) (MOL_get R b) w
      /\ written (snd (atommapping R [a; b] mapper output w)) = written w).
Proof.
  rewrite atommapping_dispatch. split.
  - intros file ->. split; [reflexivity | apply visualize_main_prints_nothing].
  - intros ->. split; [reflexivity | apply print_dict_main_writes_nothing].
Qed.

(** ** C5: the printing path *)

(** C5. When no output file was requested and the mapper suggests exactly
    one mapping, the command succeeds and prints that mapping's
    [mol1_to_mol2] dictionary, as one line on stdout, and nothing else. *)
Theorem atommapping_prints_correspondence
    (R : Resolvers) (a b mapper : string) (output : Output) (w : World)
    (mapping : AtomMapping.t) :
  fst (OUTPUT_FILE_AND_EXT_get R output) = None ->
  AtomMapper.suggest_mappings (instantiate R (MAPPER_get R mapper))
    (MOL_get R a) (MOL_get R b) = [mapping] ->
  atommapping R [a; b] mapper output w
  = (Returned tt,
     w ++ [Stdout (Py.dict_repr (AtomMapping.mol1_to_mol2 mapping)
                     ++ Py.newline)]).
Proof.
  intros Hfile Hm. rewrite atommapping_dispatch, Hfile.
  now apply print_dict_main_single.
Qed.

(** ** C7: the image path *)

(** C7. When "png" output is requested and the mapper suggests exactly one
    mapping, the command succeeds and its only output is one write to the
    requested file of the bytes that [draw_mapping] returns for the
    mapping's table, its two molecules in RDKit form and the 600x300 Cairo
    artist; those bytes are non-empty, the drawing routine producing image
    bytes. *)
Theorem atommapping_png_writes_image
    (R : Resolvers) (a b mapper : string) (output : Output) (file : File)
    (w : World) (mapping : AtomMapping.t) :
  draws_image_bytes ->
  OUTPUT_FILE_AND_EXT_get R output = (Some file, "png") ->
  AtomMapper.suggest_mappings (instantiate R (MAPPER_get R mapper))
    (MOL_get R a) (MOL_get R b) = [mapping] ->
  exists contents,
    contents = draw_mapping (AtomMapping.mol1_to_mol2 mapping)
                            (to_rdkit (AtomMapping.mol1 mapping))
                            (to_rdkit (AtomMapping.mol2 mapping))
                            (MolDraw2DCairo 600 300 300 300)
    /\ contents <> []
    /\ atommapping R [a; b] mapper output w
       = (Returned tt, w ++ [FileWrite file contents]).
Proof.
  intros Hdraw Hout Hm. eexists. split; [reflexivity | split].
  - apply Hdraw.
  - rewrite atommapping_dispatch, Hout. simpl.
    now apply visualize_main_png.
Qed.

(** ** C8: errors of the image path *)

(** C8. Whenever [atommapping_visualize_main] raises, the output log is
    left as it was: nothing has been written to the file.  It raises
    exactly when the mapper does not suggest exactly one mapping or the
    extension has no renderer; and when the count is wrong the error is the
    mapping-count usage error whatever the extension is. *)
Theorem visualize_main_errors_write_nothing
    (mapper : AtomMapper.t) (mol1 mol2 : Molecule) (file : File)
    (ext : string) (w : World) :
  (forall e w',
      atommapping_visualize_main mapper mol1 mol2 file ext w = (Raised e, w') ->
      w' = w)
  /\ ((exists e w',
         atommapping_visualize_main mapper mol1 mol2 file ext w = (Raised e, w'))
      <-> (List.length (AtomMapper.suggest_mappings mapper mol1 mol2) <> 1
           \/ Py.dict_get ext_to_artist ext = None))
  /\ (List.length (AtomMapper.suggest_mappings mapper mol1 mol2) <> 1 ->
      atommapping_visualize_main mapper mol1 mol2 file ext w
      = (Raised (UsageError (found_message
           (List.length (AtomMapper.suggest_mappings mapper mol1 mol2)))), w)).
Proof.
  split; [|split].
  - intros e w' Hrun.
    destruct (visualize_main_run mapper mol1 mol2 file ext w);
      now inversion Hrun.
  - destruct (visualize_main_run mapper mol1 mol2 file ext w)
      as [Hn|m Hm Hext|m Hm Hext]; split.
    + intros _. now left.
    + intros _. eauto.
    + intros _. right. now apply no_renderer_iff.
    + intros _. eauto.
    + intros [e [w' Hrun]]. discriminate.
    + intros [Hn|Hnone].
      * rewrite Hm in Hn. now elim Hn.
      * apply no_renderer_iff in Hnone. now elim Hnone.
  - apply visualize_main_miscount.
Qed.

(** ** C4, C10: unsupported extensions *)

(** C4, as amended. When the mapper suggests exactly one mapping, every
    extension other than "png" has no renderer and makes
    [atommapping_visualize_main] raise click's parameter error, with the
    message "Unknown file format: 'ext'. The following formats are
    supported: 'png'"; nothing is written. *)
Theorem visualize_main_unsupported_extension
    (mapper : AtomMapper.t) (mol1 mol2 : Molecule) (file : File)
    (ext : string) (w : World) :
  List.length (AtomMapper.suggest_mappings mapper mol1 mol2) = 1 ->
  ext <> "png" ->
  Py.dict_get ext_to_artist ext = None
  /\ atommapping_visualize_main mapper mol1 mol2 file ext w
     = (Raised (BadParameter
          ("Unknown file format: '" ++ ext
             ++ "'. The following formats are supported: 'png'")), w)
  /\ Py.contains
       ("Unknown file format: '" ++ ext
          ++ "'. The following formats are supported: 'png'") "'png'".
Proof.
  intros Hone Hext. destruct (length_one_inv _ Hone) as [m Hm].
  split; [now apply no_renderer_iff | split].
  - rewrite <- unknown_format_message_png.
    now apply visualize_main_unknown_ext with (m := m).
  - exists ("Unknown file format: '" ++ ext
              ++ "'. The following formats are supported: ")%string, "".
    simpl. now rewrite string_app_assoc.
Qed.

(** C10, as amended. The lookup of the extension is case-sensitive: when
    the mapper suggests exactly one mapping, an extension that spells "png"
    with some upper-case letter (it lower-cases to "png" and is not "png")
    has no renderer, and [atommapping_visualize_main] raises the
    unknown-format parameter error and writes nothing. *)
Theorem visualize_main_extension_case_sensitive
    (mapper : AtomMapper.t) (mol1 mol2 : Molecule) (file : File)
    (ext : string) (w : World) :
  List.length (AtomMapper.suggest_mappings mapper mol1 mol2) = 1 ->
  Py.lower ext = "png" ->
  ext <> "png" ->
  Py.dict_get ext_to_artist ext = None
  /\ atommapping_visualize_main mapper mol1 mol2 file ext w
     = (Raised (BadParameter (unknown_format_message ext)), w).
Proof.
  intros Hone _ Hext. destruct (length_one_inv _ Hone) as [m Hm].
  split; [now apply no_renderer_iff |].
  now apply visualize_main_unknown_ext with (m := m).
Qed.

End Properties.

(** ** The theorems at concrete inputs *)

Lemma demo_draws_image_bytes : draws_image_bytes (E := Demo.externals).
Proof. intros d m1 m2 artist. discriminate. Qed.

(** C1 on a mapper that suggests two mappings, and on one that suggests one. *)
Lemma generate_mapping_usage_error_iff_witness :
  (exists message,
      generate_mapping (Demo.mapper_of "double") "benzene" "toluene"
      = Raised (UsageError message))
  /\ ~ (exists message,
          generate_mapping (Demo.mapper_of "single") "benzene" "toluene"
          = Raised (UsageError message)).
Proof.
  split.
  - apply (proj1 (generate_mapping_usage_error_iff
                    (Demo.mapper_of "double") "benzene" "toluene")).
    simpl. lia.
  - intros Hraise.
    apply (proj1 (generate_mapping_usage_error_iff
                    (Demo.mapper_of "single") "benzene" "toluene")) in Hraise.
    now apply Hraise.
Defined.

(** C2 on a mapper that suggests one mapping. *)
Lemma generate_mapping_returns_the_single_mapping_witness :
  exists mapping,
    AtomMapper.suggest_mappings (Demo.mapper_of "single") "benzene" "toluene"
    = [mapping]
    /\ generate_mapping (Demo.mapper_of "single") "benzene" "toluene"
       = Returned mapping.
Proof.
  apply (generate_mapping_returns_the_single_mapping
           (Demo.mapper_of "single") "benzene" "toluene").
  reflexivity.
Defined.

(** C3 on zero, one, three and two [--mol] values. *)
Lemma allow_two_molecules_rejects_all_but_two_witness :
  allow_two_molecules tt tt []
  = Raised (BadParameter "Must specify --mol exactly twice.")
  /\ allow_two_molecules tt tt ["benzene"]
     = Raised (BadParameter "Must specify --mol exactly twice.")
  /\ allow_two_molecules tt tt ["benzene"; "toluene"; "phenol"]
     = Raised (BadParameter "Must specify --mol exactly twice.")
  /\ (forall e, allow_two_molecules tt tt ["benzene"; "toluene"] <> Raised e).
Proof.
  split; [| split; [| split]].
  - apply (proj1 (allow_two_molecules_rejects_all_but_two tt tt [])).
    simpl. lia.
  - apply (proj1 (allow_two_molecules_rejects_all_but_two tt tt ["benzene"])).
    simpl. lia.
  - apply (proj1 (allow_two_molecules_rejects_all_but_two tt tt
                    ["benzene"; "toluene"; "phenol"])).
    simpl. lia.
  - apply (proj2 (allow_two_molecules_rejects_all_but_two tt tt
                    ["benzene"; "toluene"])).
    reflexivity.
Defined.

(** C9 on two [--mol] values. *)
Lemma allow_two_molecules_identity_witness :
  allow_two_molecules tt tt ["toluene"; "benzene"]
  = Returned ["toluene"; "benzene"].
Proof.
  apply (allow_two_molecules_identity tt tt ["toluene"; "benzene"]).
  reflexivity.
Defined.

(** C6 with and without an output file. *)
Lemma atommapping_dispatches_on_file_witness :
  atommapping Demo.resolvers ["benzene"; "toluene"] "single"
              (Some ("out.png", "png")) []
  = atommapping_visualize_main (Demo.mapper_of "single") "benzene" "toluene"
                               "out.png" "png" []
  /\ atommapping Demo.resolvers ["benzene"; "toluene"] "single" None []
     = atommapping_print_dict_main (Demo.mapper_of "single")
                                   "benzene" "toluene" [].
Proof.
  split.
  - apply (proj1 (atommapping_dispatches_on_file (E := Demo.externals)
                    Demo.resolvers "benzene" "toluene" "single"
                    (Some ("out.png", "png")) []) "out.png").
    reflexivity.
  - apply (proj2 (atommapping_dispatches_on_file (E := Demo.externals)
                    Demo.resolvers "benzene" "toluene" "single" None [])).
    reflexivity.
Defined.

(** C5 on a mapper that suggests one mapping, with no output file. *)
Lemma atommapping_prints_correspondence_witness :
  atommapping Demo.resolvers ["benzene"; "toluene"] "single" None []
  = (Returned tt, [Stdout ("{0: 0, 1: 2, 2: 1}" ++ Py.newline)]).
Proof.
  apply (atommapping_prints_correspondence (E := Demo.externals)
           Demo.resolvers "benzene" "toluene" "single" None []
           (Demo.mapping_of "benzene" "toluene")); reflexivity.
Defined.

(** C7 on a mapper that suggests one mapping, with [out.png] requested. *)
Lemma atommapping_png_writes_image_witness :
  exists contents,
    contents = Demo.png_signature
    /\ contents <> []
    /\ atommapping Demo.resolvers ["benzene"; "toluene"] "single"
                   (Some ("out.png", "png")) []
       = (Returned tt, [FileWrite (E := Demo.externals) "out.png" contents]).
Proof.
  apply (atommapping_png_writes_image (E := Demo.externals)
           Demo.resolvers "benzene" "toluene" "single"
           (Some ("out.png", "png")) "out.png" []
           (Demo.mapping_of "benzene" "toluene")).
  - exact demo_draws_image_bytes.
  - reflexivity.
  - reflexivity.
Defined.

(** C8 when both the count and the extension are wrong. *)
Lemma visualize_main_errors_write_nothing_witness :
  atommapping_visualize_main (E := Demo.externals) (Demo.mapper_of "double")
    "benzene" "toluene" "out.bmp" "bmp"
    [Stdout "earlier output"]
  = (Raised (UsageError
       "Found 2 mappings; this command requires a mapper to provide exactly 1 mapping"),
     [Stdout "earlier output"]).
Proof.
  apply (proj2 (proj2 (visualize_main_errors_write_nothing
                         (E := Demo.externals) (Demo.mapper_of "double")
                         "benzene" "toluene" "out.bmp" "bmp"
                         [Stdout "earlier output"]))).
  simpl. lia.
Defined.

(** C4, as stated, fails: with a mapper that suggests no mapping, asking for
    "bmp" raises the mapping-count usage error, not a parameter error. *)
Lemma unsupported_extension_after_miscount :
  "bmp" <> "png"
  /\ atommapping_visualize_main (E := Demo.externals) (Demo.mapper_of "empty")
       "benzene" "toluene" "out.bmp" "bmp" []
     = (Raised (UsageError
          "Found 0 mappings; this command requires a mapper to provide exactly 1 mapping"),
        [])
  /\ ~ (exists message w',
          atommapping_visualize_main (E := Demo.externals)
            (Demo.mapper_of "empty") "benzene" "toluene" "out.bmp" "bmp" []
          = (Raised (BadParameter message), w')).
Proof.
  split; [discriminate | split; [reflexivity |]].
  intros [message [w' Hrun]]. discriminate.
Qed.

(** C4, as amended, on "bmp". *)
Lemma visualize_main_unsupported_extension_witness :
  atommapping_visualize_main (E := Demo.externals) (Demo.mapper_of "single")
    "benzene" "toluene" "out.bmp" "bmp" []
  = (Raised (BadParameter
       "Unknown file format: 'bmp'. The following formats are supported: 'png'"),
     []).
Proof.
  apply (visualize_main_unsupported_extension (E := Demo.externals)
           (Demo.mapper_of "single") "benzene" "toluene" "out.bmp" "bmp" []).
  - reflexivity.
  - discriminate.
Defined.

(** C10, as stated, fails: with a mapper that suggests two mappings, asking
    for "PNG" raises the mapping-count usage error, not the unknown-format
    parameter error. *)
Lemma upper_case_extension_after_miscount :
  Py.lower "PNG" = "png"
  /\ atommapping_visualize_main (E := Demo.externals) (Demo.mapper_of "double")
       "benzene" "toluene" "out.PNG" "PNG" []
     = (Raised (UsageError
          "Found 2 mappings; this command requires a mapper to provide exactly 1 mapping"),
        [])
  /\ ~ (exists message w',
          atommapping_visualize_main (E := Demo.externals)
            (Demo.mapper_of "double") "benzene" "toluene" "out.PNG" "PNG" []
          = (Raised (BadParameter message), w')).
Proof.
  split; [reflexivity | split; [reflexivity |]].
  intros [message [w' Hrun]]. discriminate.
Qed.

(** C10, as amended, on "PNG". *)
Lemma visualize_main_extension_case_sensitive_witness :
  atommapping_visualize_main (E := Demo.externals) (Demo.mapper_of "single")
    "benzene" "toluene" "out.PNG" "PNG" []
  = (Raised (BadParameter
       "Unknown file format: 'PNG'. The following formats are supported: 'png'"),
     []).
Proof.
  apply (visualize_main_extension_case_sensitive (E := Demo.externals)
           (Demo.mapper_of "single") "benzene" "toluene" "out.PNG" "PNG" []).
  - reflexivity.
  - reflexivity.
  - discriminate.
Defined.

(** * Further properties of the command *)

Section CommandRuns.

Context {E : Externals}.


(** The four runs of [atommapping] on a pair of [--mol] values. *)
Lemma atommapping_pair_run (R : Resolvers) (a b mapper : string)
    (output : Output) (w : World) :
  (List.length (AtomMapper.suggest_mappings (instantiate R (MAPPER_get R mapper))
                  (MOL_get R a) (MOL_get R b)) <> 1
   /\ atommapping R [a; b] mapper output w
      = (Raised (UsageError (found_message
           (List.length (AtomMapper.suggest_mappings
                           (instantiate R (MAPPER_get R mapper))
                           (MOL_get R a) (MOL_get R b))))), w))
  \/ (exists m,
        AtomMapper.suggest_mappings (instantiate R (MAPPER_get R mapper))
          (MOL_get R a) (MOL_get R b) = [m]
        /\ fst (OUTPUT_FILE_AND_EXT_get R output) = None
        /\ atommapping R [a; b] mapper output w
           = (Returned tt,
              w ++ [Stdout (Py.dict_repr (AtomMapping.mol1_to_mol2 m)
                              ++ Py.newline)]))
  \/ (exists m file,
        AtomMapper.suggest_mappings (instantiate R (MAPPER_get R mapper))
          (MOL_get R a) (MOL_get R b) = [m]
        /\ OUTPUT_FILE_AND_EXT_get R output = (Some file, "png")
        /\ atommapping R [a; b] mapper output w
           = (Returned tt,
              w ++ [FileWrite file
                      (draw_mapping (AtomMapping.mol1_to_mol2 m)
                                    (to_rdkit (AtomMapping.mol1 m))
                                    (to_rdkit (AtomMapping.mol2 m))
                                    (MolDraw2DCairo 600 300 300 300))]))
  \/ (exists m file ext,
        AtomMapper.suggest_mappings (instantiate R (MAPPER_get R mapper))
          (MOL_get R a) (MOL_get R b) = [m]
        /\ OUTPUT_FILE_AND_EXT_get R output = (Some file, ext)
        /\ ext <> "png"
        /\ atommapping R [a; b] mapper output w
           = (Raised (BadParameter (unknown_format_message ext)), w)).
Proof.
  rewrite atommapping_dispatch.
  destruct (Nat.eq_dec
              (List.length (AtomMapper.suggest_mappings
                              (instantiate R (MAPPER_get R mapper))
                              (MOL_get R a) (MOL_get R b))) 1)
    as [Hone|Hmany].
  - destruct (length_one_inv _ Hone) as [m Hm].
    destruct (OUTPUT_FILE_AND_EXT_get R output) as [[file|] ext] eqn:Hout; simpl.
    + destruct (string_dec ext "png") as [->|Hext].
      * right; right; left. exists m, file.
        split; [exact Hm | split; [reflexivity |]].
        now apply visualize_main_png.
      * right; right; right. exists m, file, ext.
        split; [exact Hm | split; [reflexivity | split; [exact Hext |]]].
        now apply visualize_main_unknown_ext with (m := m).
    + right; left. exists m.
      split; [exact Hm | split; [reflexivity |]].
      now apply print_dict_main_single.
  - left. split; [exact Hmany |].
    destruct (fst (OUTPUT_FILE_AND_EXT_get R output)) as [file|].
    + now apply visualize_main_miscount.
    + now apply print_dict_main_miscount.
Qed.

(** X1. Called with anything but two [--mol] values, [atommapping] fails at
    the unpacking of [mol] with a [ValueError], before any output. *)
Theorem atommapping_unpacking_error
    (R : Resolvers) (mol : list string) (mapper : string) (output : Output)
    (w : World) :
  List.length mol <> 2 ->
  atommapping R mol mapper output w = (Raised ValueError, w).
Proof.
  intros Hlen. unfold atommapping, bind, lift.
  destruct mol as [|a [|b [|c rest]]]; simpl; try reflexivity.
  now elim Hlen.
Qed.


(** X3. When the mapper does not suggest exactly one mapping, the command
    fails with the mapping-count usage error and outputs nothing, whatever
    [--output] is: with or without a file, supported extension or not. *)
Theorem atommapping_miscount_whatever_output
    (R : Resolvers) (a b mapper : string) (output : Output) (w : World) :
  List.length (AtomMapper.suggest_mappings (instantiate R (MAPPER_get R mapper))
                 (MOL_get R a) (MOL_get R b)) <> 1 ->
  atommapping R [a; b] mapper output w
  = (Raised (UsageError (found_message
       (List.length (AtomMapper.suggest_mappings
                       (instantiate R (MAPPER_get R mapper))
                       (MOL_get R a) (MOL_get R b))))), w).
Proof.
  intros Hn.
  destruct (atommapping_pair_run R a b mapper output w)
    as [[_ Hr]|[[m [Hm _]]|[[m [file [Hm _]]]|[m [file [ext [Hm _]]]]]]];
    trivial; rewrite Hm in Hn; now elim Hn.
Qed.

(** X4. On a pair of [--mol] values the command returns normally exactly
    when the mapper suggests exactly one mapping and either no output file
    was requested or the requested extension is "png". *)
Theorem atommapping_succeeds_iff
    (R : Resolvers) (a b mapper : string) (output : Output) (w : World) :
  (exists w', atommapping R [a; b] mapper output w = (Returned tt, w'))
  <-> (List.length (AtomMapper.suggest_mappings
                      (instantiate R (MAPPER_get R mapper))
                      (MOL_get R a) (MOL_get R b)) = 1
       /\ (fst (OUTPUT_FILE_AND_EXT_get R output) = None
           \/ snd (OUTPUT_FILE_AND_EXT_get R output) = "png")).
Proof.
  destruct (atommapping_pair_run R a b mapper output w)
    as [[Hn Hr]|[[m [Hm [Hout Hr]]]|[[m [file [Hm [Hout Hr]]]]
       |[m [file [ext [Hm [Hout [Hext Hr]]]]]]]]];
    rewrite Hr; split.
  - intros [w' Hrun]. discriminate.
  - intros [Hone _]. now elim Hn.
  - intros _. rewrite Hm. auto.
  - intros _. eauto.
  - intros _. rewrite Hm, Hout. auto.
  - intros _. eauto.
  - intros [w' Hrun]. discriminate.
  - rewrite Hout. simpl. intros [_ [Hnone|Hpng]]; [discriminate | now elim Hext].
Qed.

(** X5. The command outputs one thing or nothing.  When it raises, the
    output is what it was.  When it returns, exactly one event was added: a
    line on stdout if no output file was requested, a write to the requested
    file (and to no other) if one was. *)
Theorem atommapping_single_output
    (R : Resolvers) (a b mapper : string) (output : Output) (w : World) :
  match atommapping R [a; b] mapper output w with
  | (Raised _, w') => w' = w
  | (Returned _, w') =>
      exists event,
        w' = w ++ [event]
        /\ match event with
           | Stdout _ => fst (OUTPUT_FILE_AND_EXT_get R output) = None
           | FileWrite file _ =>
               fst (OUTPUT_FILE_AND_EXT_get R output) = Some file
           end
  end.
Proof.
  destruct (atommapping_pair_run R a b mapper output w)
    as [[Hn Hr]|[[m [Hm [Hout Hr]]]|[[m [file [Hm [Hout Hr]]]]
       |[m [file [ext [Hm [Hout [Hext Hr]]]]]]]]];
    rewrite Hr; trivial.
  - eexists. split; [reflexivity | exact Hout].
  - eexists. split; [reflexivity | now rewrite Hout].
Qed.

(** X6. [generate_mapping] returns a mapping only if it is the mapper's one
    and only suggestion, and always then. *)
Theorem generate_mapping_returns_iff
    (mapper : AtomMapper.t) (mol1 mol2 : Molecule) (mapping : AtomMapping.t) :
  generate_mapping mapper mol1 mol2 = Returned mapping
  <-> AtomMapper.suggest_mappings mapper mol1 mol2 = [mapping].
Proof.
  split; [| apply generate_mapping_single].
  destruct (Nat.eq_dec
              (List.length (AtomMapper.suggest_mappings mapper mol1 mol2)) 1)
    as [Hone|Hmany].
  - destruct (length_one_inv _ Hone) as [m Hm].
    rewrite (generate_mapping_single _ _ _ _ Hm). now intros [= <-].
  - rewrite (generate_mapping_miscount _ _ _ Hmany). discriminate.
Qed.

(** X7. The printing path raises exactly when the mapper does not suggest
    exactly one mapping; what it raises is then the mapping-count usage
    error, and nothing has been printed. *)
Theorem print_dict_main_errors_print_nothing
    (mapper : AtomMapper.t) (mol1 mol2 : Molecule) (w : World) :
  ((exists e w',
       atommapping_print_dict_main mapper mol1 mol2 w = (Raised e, w'))
   <-> List.length (AtomMapper.suggest_mappings mapper mol1 mol2) <> 1)
  /\ (forall e w',
        atommapping_print_dict_main mapper mol1 mol2 w = (Raised e, w') ->
        w' = w
        /\ e = UsageError (found_message
                 (List.length (AtomMapper.suggest_mappings mapper mol1 mol2)))).
Proof.
  destruct (Nat.eq_dec
              (List.length (AtomMapper.suggest_mappings mapper mol1 mol2)) 1)
    as [Hone|Hmany].
  - destruct (length_one_inv _ Hone) as [m Hm].
    rewrite (print_dict_main_single _ _ _ _ _ Hm). split.
    + split; [intros [e [w' Hrun]]; discriminate | intros Hne; now elim Hne].
    + intros e w' Hrun. discriminate.
  - rewrite (print_dict_main_miscount _ _ _ _ Hmany). split.
    + split; [now intros _ | intros _; eauto].
    + intros e w' Hrun. now inversion Hrun.
Qed.

End CommandRuns.

(** X1 on a single [--mol] value. *)
Lemma atommapping_unpacking_error_witness :
  atommapping Demo.resolvers ["benzene"] "single" None []
  = (Raised ValueError, []).
Proof.
  apply (atommapping_unpacking_error (E := Demo.externals)
           Demo.resolvers ["benzene"] "single" None []).
  simpl. lia.
Defined.


(** X3 on a mapper that suggests two mappings, with a "png" file requested. *)
Lemma atommapping_miscount_whatever_output_witness :
  atommapping Demo.resolvers ["benzene"; "toluene"] "double"
              (Some ("out.png", "png")) []
  = (Raised (UsageError
       "Found 2 mappings; this command requires a mapper to provide exactly 1 mapping"),
     []).
Proof.
  apply (atommapping_miscount_whatever_output (E := Demo.externals)
           Demo.resolvers "benzene" "toluene" "double"
           (Some ("out.png", "png")) []).
  simpl. lia.
Defined.
